(** * Penguin species prediction service

    A shallow embedding of the inference server of [main.py], of the copy of
    the application that [test_api.py] defines for its tests, and of the
    column selection of [train.py], with the properties of the request and
    response contract and of the model loading at start-up.

    The web framework, the validation framework and the classifier library
    are not part of the repository.  What the code asks of them is modelled
    here as follows.
    - The request body is the Python object that the JSON decoder hands to
      the validation: [pyobj].  A string holds the UTF-8 bytes of its text.
    - A Python float is a binary64 number, [spec_float] of the Standard
      Library with 53 bits of precision; conversions round to the nearest
      float, to the even one of two that are as near.
    - The validation follows pydantic's [validate_model] for a [BaseModel]
      with the default configuration: fields in declaration order, for each
      field the conversion to [float], then the bound given to [Field], then
      the validators of the class; names that are not fields are ignored;
      an exception that is no [ValueError], [TypeError] or [AssertionError]
      is not caught.
    - The classifier is an opaque function from a feature row to a label. *)

From stdpp Require Import base gmap strings list.
From Stdlib Require Import ZArith Ascii String Lia.
From Stdlib Require Import Floats.SpecFloat.

Open Scope Z_scope.

(** ** Floats *)

Abbreviation float := spec_float.

Definition float_zero : float := S754_zero false.

(** [x >= y] and [x < y]; any comparison with NaN is false. *)
Definition float_ge (x y : float) : bool := SFleb y x.

Definition float_lt (x y : float) : bool := SFltb x y.

(** [2 ^ k <= n / d], for [k] of either sign. *)
Definition pow2_le (k : Z) (n d : positive) : bool :=
  if 0 <=? k then Z.pos d * 2 ^ k <=? Z.pos n
  else Z.pos d <=? Z.pos n * 2 ^ (- k).

(** The integer nearest to [num / den], and the even one of the two when
    [num / den] is half way between them. *)
Definition div_half_even (num den : Z) : Z :=
  let q := num / den in
  match Z.compare (2 * (num mod den)) den with
  | Lt => q
  | Gt => q + 1
  | Eq => if Z.even q then q else q + 1
  end.

(** The binary64 number nearest to [n / d], with sign [s]: the mantissa has
    53 bits, or fewer at the exponent -1074 of the subnormal numbers; a
    result beyond the largest float is an infinity, a result that rounds to
    nothing is a zero. *)
Definition round_binary64 (s : bool) (n d : positive) : float :=
  let k := Z.log2 (Z.pos n) - Z.log2 (Z.pos d) in
  let lg := if pow2_le k n d then k else k - 1 in
  let e := Z.max (lg - 52) (-1074) in
  let m := div_half_even (Z.pos n * 2 ^ Z.max 0 (- e))
                         (Z.pos d * 2 ^ Z.max 0 e) in
  let '(m, e) := if m =? 2 ^ 53 then (2 ^ 52, e + 1) else (m, e) in
  match m with
  | Z.pos p => if e <=? 971 then S754_finite s p e else S754_infinity s
  | _ => S754_zero s
  end.

(** ** Python values *)

#[warnings="-register-all"]
Inductive pyobj : Type :=
| PyNone
| PyBool (b : bool)
| PyInt (z : Z)
| PyFloat (x : float)
| PyStr (s : string)
| PyList (l : list pyobj)
| PyDict (d : gmap string pyobj).

Inductive exn : Type :=
| ValueError (msg : string)
| TypeError (msg : string)
| AssertionError (msg : string)
| OverflowError (msg : string)
| RuntimeError (msg : string)
| AttributeError (msg : string)
| IndexError (msg : string)
| HTTPException (status_code : Z) (detail : string)
| OtherException (name msg : string)
| KeyboardInterrupt
| SystemExit (code : Z).

(** The exceptions that [except Exception] catches: all but the two that
    derive from [BaseException] only. *)
Definition is_Exception (e : exn) : bool :=
  match e with
  | KeyboardInterrupt | SystemExit _ => false
  | _ => true
  end.

(** ** The builtin [float] on strings *)

Module PyFloatParse.

(** The code points of a text from its UTF-8 bytes; a byte that starts no
    well-formed sequence gives -1. *)
Fixpoint utf8_decode (l : list Z) : list Z :=
  let cont b := (128 <=? b) && (b <? 192) in
  match l with
  | [] => []
  | b0 :: l1 =>
      if b0 <? 128 then b0 :: utf8_decode l1
      else
        match l1 with
        | b1 :: l2 =>
            if (192 <=? b0) && (b0 <? 224) && cont b1 then
              ((b0 - 192) * 64 + (b1 - 128)) :: utf8_decode l2
            else
              match l2 with
              | b2 :: l3 =>
                  if (224 <=? b0) && (b0 <? 240) && cont b1 && cont b2 then
                    ((b0 - 224) * 4096 + (b1 - 128) * 64 + (b2 - 128))
                    :: utf8_decode l3
                  else
                    match l3 with
                    | b3 :: l4 =>
                        if (240 <=? b0) && (b0 <? 248)
                           && cont b1 && cont b2 && cont b3 then
                          ((b0 - 240) * 262144 + (b1 - 128) * 4096
                           + (b2 - 128) * 64 + (b3 - 128))
                          :: utf8_decode l4
                        else -1 :: utf8_decode l1
                    | [] => -1 :: utf8_decode l1
                    end
              | [] => -1 :: utf8_decode l1
              end
        | [] => [-1]
        end
  end.

(** The code points above ASCII for which [str.isspace] holds. *)
Definition unicode_space (ch : Z) : bool :=
  bool_decide (ch ∈ [133; 160; 5760; 8232; 8233; 8239; 8287; 12288])
  || ((8192 <=? ch) && (ch <=? 8202)).

(** The digits zero of the scripts of Unicode 14.0; the nine code points
    after each are its digits one to nine. *)
Definition unicode_zeros : list Z :=
  [48; 1632; 1776; 1984; 2406; 2534; 2662; 2790; 2918; 3046; 3174; 3302;
   3430; 3558; 3664; 3792; 3872; 4160; 4240; 6112; 6160; 6470; 6608; 6784;
   6800; 6992; 7088; 7232; 7248; 42528; 43216; 43264; 43472; 43504; 43600;
   44016; 65296; 66720; 68912; 69734; 69872; 69942; 70096; 70384; 70736;
   70864; 71248; 71360; 71472; 71904; 72016; 72784; 73040; 73120; 92768;
   92864; 93008; 120782; 120792; 120802; 120812; 120822; 123200; 123632;
   125264; 130032].

(** [unicodedata.decimal] *)
Definition unicode_decimal (ch : Z) : option Z :=
  match List.find (λ z, (z <=? ch) && (ch <=? z + 9)) unicode_zeros with
  | Some z => Some (ch - z)
  | None => None
  end.

(** The text as [float] reads it: ASCII is kept, a blank above ASCII is a
    space, a digit above ASCII is its ASCII digit, and the text ends with
    a question mark at the first code point that is none of these. *)
Fixpoint to_ascii (l : list Z) : list Z :=
  match l with
  | [] => []
  | ch :: l' =>
      if (0 <=? ch) && (ch <? 127) then ch :: to_ascii l'
      else if unicode_space ch then 32 :: to_ascii l'
      else
        match unicode_decimal ch with
        | Some d => (48 + d) :: to_ascii l'
        | None => [63]
        end
  end.

Definition is_space (c : Z) : bool := (c =? 32) || ((9 <=? c) && (c <=? 13)).

Definition digit_of (c : Z) : option Z :=
  if (48 <=? c) && (c <=? 57) then Some (c - 48) else None.

Definition lower (c : Z) : Z :=
  if (65 <=? c) && (c <=? 90) then c + 32 else c.

Fixpoint lstrip (l : list Z) : list Z :=
  match l with
  | c :: l' => if is_space c then lstrip l' else l
  | [] => []
  end.

Definition strip (l : list Z) : list Z := rev (lstrip (rev (lstrip l))).

(** digitpart ::= digit (["_"] digit)*  The result is the number read on
    top of [acc], the count of digits read, and the rest of the input. *)
Fixpoint digitpart (acc cnt : Z) (l : list Z) : Z * Z * list Z :=
  match l with
  | [] => (acc, cnt, [])
  | c :: l' =>
      match digit_of c with
      | Some d => digitpart (10 * acc + d) (cnt + 1) l'
      | None =>
          if (c =? 95) && (0 <? cnt) then
            match l' with
            | c2 :: l'' =>
                match digit_of c2 with
                | Some d => digitpart (10 * acc + d) (cnt + 1) l''
                | None => (acc, cnt, l)
                end
            | [] => (acc, cnt, l)
            end
          else (acc, cnt, l)
      end
  end.

(** number ::= [digitpart] "." digitpart | digitpart ["."]
    The result is a mantissa and a decimal exponent. *)
Definition number (l : list Z) : option (Z * Z * list Z) :=
  let '(i, ni, r1) := digitpart 0 0 l in
  match r1 with
  | c :: r2 =>
      if c =? 46 then
        let '(m, nf, r3) := digitpart i 0 r2 in
        if (ni =? 0) && (nf =? 0) then None else Some (m, - nf, r3)
      else if ni =? 0 then None else Some (i, 0, r1)
  | [] => if ni =? 0 then None else Some (i, 0, [])
  end.

Definition sign (l : list Z) : bool * list Z :=
  match l with
  | c :: l' =>
      if c =? 45 then (true, l')
      else if c =? 43 then (false, l')
      else (false, l)
  | [] => (false, [])
  end.

(** exponent ::= ("e" | "E") [sign] digitpart *)
Definition exponent (l : list Z) : option Z :=
  match l with
  | [] => Some 0
  | c :: l' =>
      if lower c =? 101 then
        let '(neg, r) := sign l' in
        match digitpart 0 0 r with
        | (e, n, []) =>
            if n =? 0 then None else Some (if neg then - e else e)
        | _ => None
        end
      else None
  end.

(** The float nearest to [m * 10 ^ e], with sign [s].  The first two cases
    give at once the result of the last for the exponents at which the
    power would be too large to compute: at or above [2 ^ 1024] the
    nearest float is an infinity, and below [2 ^ -1075] it is a zero. *)
Definition decimal (s : bool) (m e : Z) : float :=
  match m with
  | Z.pos p =>
      if 1024 <=? Z.log2 m + 3 * e then S754_infinity s
      else if Z.log2 m + 1 + 3 * e <? -1075 then S754_zero s
      else if 0 <=? e then round_binary64 s (p * Z.to_pos (10 ^ e)) 1
      else round_binary64 s p (Z.to_pos (10 ^ (- e)))
  | _ => S754_zero s
  end.

Definition floatnumber (s : bool) (l : list Z) : option float :=
  match number l with
  | Some (m, e, r) =>
      match exponent r with
      | Some e' => Some (decimal s m (e + e'))
      | None => None
      end
  | None => None
  end.

Definition codes (s : string) : list Z :=
  map (λ c, Z.of_nat (nat_of_ascii c)) (list_ascii_of_string s).

(** floatvalue ::= [sign] (floatnumber | infinity | nan), between
    optional blanks; the words are read in either case. *)
Definition floatvalue (s : string) : option float :=
  let '(neg, r) := sign (strip (to_ascii (utf8_decode (codes s)))) in
  let w := map lower r in
  if bool_decide (w = [105; 110; 102])
     || bool_decide (w = [105; 110; 102; 105; 110; 105; 116; 121]) then
    Some (S754_infinity neg)
  else if bool_decide (w = [110; 97; 110]) then Some S754_nan
  else floatnumber neg r.

End PyFloatParse.

(** ** The builtin [float] on the other values *)

(** [float(z)] for an int: the nearest float, or [OverflowError] when that
    is beyond the largest float. *)
Definition float_of_int (z : Z) : exn + float :=
  let finite x :=
    match x with
    | S754_infinity _ => inl (OverflowError "int too large to convert to float")
    | _ => inr x
    end in
  match z with
  | 0 => inr float_zero
  | Z.pos p => finite (round_binary64 false p 1)
  | Z.neg p => finite (round_binary64 true p 1)
  end.

(** [float(v)]: a float is kept, an int (and so a bool) is converted, a
    string is read as a float literal, anything else is a [TypeError]. *)
Definition float_ (v : pyobj) : exn + float :=
  match v with
  | PyFloat x => inr x
  | PyInt z => float_of_int z
  | PyBool b => float_of_int (if b then 1 else 0)
  | PyStr s =>
      match PyFloatParse.floatvalue s with
      | Some x => inr x
      | None => inl (ValueError "could not convert string to float")
      end
  | PyNone | PyList _ | PyDict _ =>
      inl (TypeError "float() argument must be a string or a real number")
  end.

(** The float that the JSON decoder gives for a number written [s] with a
    fraction or an exponent. *)
Definition float_literal (s : string) : float :=
  match PyFloatParse.floatvalue s with
  | Some x => x
  | None => S754_nan
  end.

(** ** The process: classifier, module globals, observable events *)

(** A loaded classifier.  [model.predict(data)] answers one label for each
    row of [data]; the labels are numpy integers, read here as their
    value. *)
Record XGBClassifier : Type := { predict_row : list float → Z }.

Definition XGBClassifier_predict (m : XGBClassifier)
    (data : list (list float)) : list Z :=
  map (predict_row m) data.

(** The module-level names that the code assigns.  [model = None] is the
    Python [None]. *)
Record Globals : Type := {
  MODEL_PATH : option string;
  model : option XGBClassifier
}.

Inductive event : Type :=
| Getenv (name : string)
| Download (bucket_name blob_name : string)
| PathExists (path : string)
| LoadModel (path : string)
| Print (msg : string)
| Predict (data : list (list float)).

(** Computations that read and assign the globals, may raise, and leave a
    trace of the calls they make outside the module. *)
Definition M (A : Type) : Type :=
  Globals → (exn + A) * Globals * list event.

Definition ret {A} (a : A) : M A := λ g, (inr a, g, []).

Definition bind {A B} (m : M A) (k : A → M B) : M B := λ g,
  match m g with
  | (inr a, g', t) => let '(r, g'', t') := k a g' in (r, g'', t ++ t')
  | (inl e, g', t) => (inl e, g', t)
  end.

Definition raise {A} (e : exn) : M A := λ g, (inl e, g, []).

(** [try: m  except C as e: handler], for the class [C] of the exceptions
    that [catches] holds of; any other exception goes on. *)
Definition try_except {A} (m : M A) (catches : exn → bool)
    (handler : exn → M A) : M A := λ g,
  match m g with
  | (inl e, g', t) =>
      if catches e then
        let '(r, g'', t') := handler e g' in (r, g'', t ++ t')
      else (inl e, g', t)
  | (inr a, g', t) => (inr a, g', t)
  end.

Definition emit (e : event) : M unit := λ g, (inr tt, g, [e]).

Definition get_global {A} (f : Globals → A) : M A := λ g, (inr (f g), g, []).

Definition set_globals (f : Globals → Globals) : M unit :=
  λ g, (inr tt, f g, []).

Declare Scope py_scope.
Delimit Scope py_scope with py.
Notation "x <- m ;; k" := (bind m (λ x, k))
  (at level 100, m at next level, right associativity) : py_scope.
Notation "m ;;; k" := (bind m (λ _, k))
  (at level 100, right associativity) : py_scope.

(** [model.predict(data)] on the global [model]: an attribute lookup on
    [None] raises before anything is computed. *)
Definition model_predict (data : list (list float)) : M (list Z) :=
  (m <- get_global model ;;
   match m with
   | None =>
       raise (AttributeError "'NoneType' object has no attribute 'predict'")
   | Some clf =>
       emit (Predict data) ;;;
       ret (XGBClassifier_predict clf data)
   end)%py.

(** [xs[0]] *)
Definition getitem0 (xs : list Z) : M Z :=
  match xs with
  | x :: _ => ret x
  | [] => raise (IndexError "index 0 is out of bounds")
  end.

(** ** Validation of the request body *)

Inductive PydanticError : Type :=
| MissingError
| NoneIsNotAllowedError
| FloatError
| NumberNotGeError (limit_value : Z)
| ValidatorError (e : exn).

Record ErrorWrapper : Type := { exc : PydanticError; loc : string }.

(** What a validator makes of a value: a value, an error of the field, or
    an exception that the validation does not catch. *)
Inductive outcome (A : Type) : Type :=
| Valid (x : A)
| Invalid (e : PydanticError)
| Raises (e : exn).
Arguments Valid {A} x.
Arguments Invalid {A} e.
Arguments Raises {A} e.

(** The exceptions of a validator that become an error of its field. *)
Definition is_validation_error (e : exn) : bool :=
  match e with
  | ValueError _ | TypeError _ | AssertionError _ => true
  | _ => false
  end.

(** A validator of the class, applied to a value. *)
Definition apply_validator {A B} (f : A → exn + B) (v : A) : outcome B :=
  match f v with
  | inr y => Valid y
  | inl e => if is_validation_error e then Invalid (ValidatorError e)
             else Raises e
  end.

(** The conversion that pydantic applies to a field annotated [float]: a
    [TypeError] or [ValueError] of [float] is the error of the field, any
    other exception of [float] is not caught. *)
Definition float_validator (v : pyobj) : outcome float :=
  match v with
  | PyFloat x => Valid x
  | _ => match float_ v with
         | inr x => Valid x
         | inl (TypeError _) | inl (ValueError _) => Invalid FloatError
         | inl e => Raises e
         end
  end.

(** [v >= z] for a float and an int, which Python compares by their exact
    values. *)
Definition float_ge_int (v : float) (z : Z) : bool :=
  match v with
  | S754_nan => false
  | S754_infinity s => negb s
  | S754_zero _ => z <=? 0
  | S754_finite s m e =>
      let n := if s then Z.neg m else Z.pos m in
      if 0 <=? e then z <=? n * 2 ^ e else z * 2 ^ (- e) <=? n
  end.

(** The bound of [Field(..., ge=0)]: the value is refused when
    [not v >= 0]. *)
Definition number_size_validator (ge : Z) (v : float) : outcome float :=
  if float_ge_int v ge then Valid v else Invalid (NumberNotGeError ge).

Record PenguinFeatures : Type := {
  bill_length_mm : float;
  bill_depth_mm : float;
  flipper_length_mm : float;
  body_mass_g : float
}.

(** The fields of [PenguinFeatures], in declaration order. *)
Definition fields : list string :=
  ["bill_length_mm"; "bill_depth_mm"; "flipper_length_mm"; "body_mass_g"]%string.

Definition getattr (features : PenguinFeatures) (name : string) : option float :=
  if String.eqb name "bill_length_mm" then Some (bill_length_mm features)
  else if String.eqb name "bill_depth_mm" then Some (bill_depth_mm features)
  else if String.eqb name "flipper_length_mm" then Some (flipper_length_mm features)
  else if String.eqb name "body_mass_g" then Some (body_mass_g features)
  else None.

(** One field of the model, as [validate_model] treats it.  [pre] and
    [post] are the validators of the class that run before and after the
    validators of the type. *)
Definition validate_field
    (pre : pyobj → exn + pyobj) (post : float → exn + float)
    (input : gmap string pyobj) (name : string) : outcome float :=
  match input !! name with
  | None => Invalid MissingError
  | Some v =>
      match apply_validator pre v with
      | Raises e => Raises e
      | Invalid e => Invalid e
      | Valid PyNone => Invalid NoneIsNotAllowedError
      | Valid v =>
          match float_validator v with
          | Raises e => Raises e
          | Invalid e => Invalid e
          | Valid x =>
              match number_size_validator 0 x with
              | Raises e => Raises e
              | Invalid e => Invalid e
              | Valid x => apply_validator post x
              end
          end
      end
  end.

(** The result of the validation of a body: the features, the errors of
    its fields, or the exception that was not caught. *)
Inductive validation : Type :=
| Accepted (features : PenguinFeatures)
| Refused (errors : list ErrorWrapper)
| Raised (e : exn).

Definition errors_of {A} (name : string) (r : outcome A) : list ErrorWrapper :=
  match r with
  | Invalid e => [{| exc := e; loc := name |}]
  | _ => []
  end.

(** The fields are validated in the order of their declaration; the first
    exception that is not caught ends the validation; otherwise the errors
    of all the fields are collected.  The names of [input] that are not
    fields are not looked at. *)
Definition validate_model
    (pre : pyobj → exn + pyobj) (post : float → exn + float)
    (input : gmap string pyobj) : validation :=
  let field := validate_field pre post input in
  match field "bill_length_mm"%string, field "bill_depth_mm"%string,
        field "flipper_length_mm"%string, field "body_mass_g"%string with
  | Raises e, _, _, _ => Raised e
  | _, Raises e, _, _ => Raised e
  | _, _, Raises e, _ => Raised e
  | _, _, _, Raises e => Raised e
  | Valid a, Valid b, Valid c, Valid d =>
      Accepted {| bill_length_mm := a; bill_depth_mm := b;
                  flipper_length_mm := c; body_mass_g := d |}
  | ra, rb, rc, rd =>
      Refused (errors_of "bill_length_mm" ra ++ errors_of "bill_depth_mm" rb
               ++ errors_of "flipper_length_mm" rc
               ++ errors_of "body_mass_g" rd)
  end.

(** ** The web framework *)

Record Response : Type := { status_code : Z; content : pyobj }.

Definition str_exn (e : exn) : string :=
  match e with
  | ValueError msg | TypeError msg | AssertionError msg | OverflowError msg
  | RuntimeError msg | AttributeError msg | IndexError msg
  | OtherException _ msg => msg
  | HTTPException _ detail => detail
  | KeyboardInterrupt => EmptyString
  | SystemExit _ => EmptyString
  end.

Definition error_msg (e : PydanticError) : string :=
  match e with
  | MissingError => "field required"
  | NoneIsNotAllowedError => "none is not an allowed value"
  | FloatError => "value is not a valid float"
  | NumberNotGeError _ => "ensure this value is greater than or equal to 0"
  | ValidatorError e => str_exn e
  end.

Definition error_type (e : PydanticError) : string :=
  match e with
  | MissingError => "value_error.missing"
  | NoneIsNotAllowedError => "type_error.none.not_allowed"
  | FloatError => "type_error.float"
  | NumberNotGeError _ => "value_error.number.not_ge"
  | ValidatorError _ => "value_error"
  end.

(** The context that an error carries beside its message: the bound, for
    the error of the bound. *)
Definition error_ctx (e : PydanticError) : gmap string pyobj :=
  match e with
  | NumberNotGeError limit =>
      {["ctx"%string := PyDict {["limit_value"%string := PyInt limit]}]}
  | _ => ∅
  end.

Definition error_dict (e : ErrorWrapper) : pyobj :=
  PyDict (<["loc"%string := PyList [PyStr "body"; PyStr (loc e)]]>
          (<["msg"%string := PyStr (error_msg (exc e))]>
           (<["type"%string := PyStr (error_type (exc e))]>
            (error_ctx (exc e))))).

Definition detail (v : pyobj) : pyobj := PyDict {["detail"%string := v]}.

Definition internal_server_error : Response :=
  {| status_code := 500; content := PyStr "Internal Server Error" |}.

(** A route whose handler takes one argument of type [PenguinFeatures]: the
    body is validated; errors are answered with 422 and the handler is not
    called; an [HTTPException] of the handler is answered with its status;
    any other exception, of the validation or of the handler, with 500. *)
Definition route
    (validate : gmap string pyobj → validation)
    (endpoint : PenguinFeatures → M pyobj)
    (body : gmap string pyobj) (g : Globals)
    : Response * Globals * list event :=
  match validate body with
  | Raised _ => (internal_server_error, g, [])
  | Refused errors =>
      ({| status_code := 422;
          content := detail (PyList (map error_dict errors)) |}, g, [])
  | Accepted features =>
      match endpoint features g with
      | (inr result, g', t) =>
          ({| status_code := 200; content := result |}, g', t)
      | (inl (HTTPException code msg), g', t) =>
          ({| status_code := code; content := detail (PyStr msg) |}, g', t)
      | (inl _, g', t) => (internal_server_error, g', t)
      end
  end.

(** The process answers its requests one after the other on the same
    globals. *)
Fixpoint serve
    (app : gmap string pyobj → Globals → Response * Globals * list event)
    (requests : list (gmap string pyobj)) (g : Globals)
    : list Response * Globals * list event :=
  match requests with
  | [] => ([], g, [])
  | body :: rest =>
      let '(r, g', t) := app body g in
      let '(rs, g'', t') := serve app rest g' in
      (r :: rs, g'', t ++ t')
  end.

(** ** main.py *)

Module Main.

(** The start of the process consults the environment, the object store
    and the file system. *)
Record World : Type := {
  environ : gmap string string;
  (** [storage.Client()] up to [blob.download_to_filename]: the name of
      the temporary file, or the exception of the client. *)
  gcs_download : string → string → exn + string;
  os_path_exists : string → bool;
  (** [XGBClassifier.load_model] on a path. *)
  load_model : string → exn + XGBClassifier
}.

Section Startup.
Variable w : World.

Definition getenv (name : string) : M (option string) :=
  (emit (Getenv name) ;;; ret (environ w !! name))%py.

(** [not s] for the result of [os.getenv]. *)
Definition not_ (s : option string) : bool :=
  match s with
  | None => true
  | Some s => String.eqb s EmptyString
  end.

Definition download_model_from_gcs : M string :=
  (bucket_name <- getenv "GCS_BUCKET_NAME" ;;
   blob_name <- getenv "GCS_BLOB_NAME" ;;
   if not_ bucket_name || not_ blob_name then
     raise (ValueError
       "GCS_BUCKET_NAME and GCS_BLOB_NAME env vars must be set")
   else
     let bucket := default EmptyString bucket_name in
     let blob := default EmptyString blob_name in
     emit (Download bucket blob) ;;;
     match gcs_download w bucket blob with
     | inl e => raise e
     | inr temp_file_name => ret temp_file_name
     end)%py.

Definition set_MODEL_PATH (p : option string) : M unit :=
  set_globals (λ g, {| MODEL_PATH := p; model := model g |}).

Definition set_model (m : option XGBClassifier) : M unit :=
  set_globals (λ g, {| MODEL_PATH := MODEL_PATH g; model := m |}).

(** The statements of the module from [MODEL_PATH = None] to
    [model.load_model(MODEL_PATH)]. *)
Definition load_at_startup : M unit :=
  (set_MODEL_PATH None ;;;
   try_except
     (path <- download_model_from_gcs ;; set_MODEL_PATH (Some path))
     is_Exception
     (λ e,
        emit (Print ("Failed to load model from GCS: " ++ str_exn e)) ;;;
        emit (PathExists "penguin_model.json") ;;;
        if os_path_exists w "penguin_model.json" then
          set_MODEL_PATH (Some "penguin_model.json"%string)
        else raise (RuntimeError "No model available")) ;;;
   path <- get_global MODEL_PATH ;;
   match path with
   | Some path =>
       emit (LoadModel path) ;;;
       match load_model w path with
       | inl e => raise e
       | inr clf => set_model (Some clf)
       end
   | None => raise (TypeError "load_model: path is None")
   end)%py.

Definition unbound : Globals := {| MODEL_PATH := None; model := None |}.

(** Importing the module: an exception ends the process, otherwise the
    application serves on the globals that were assigned. *)
Definition start : (exn + Globals) * list event :=
  match load_at_startup unbound with
  | (inr _, g, t) => (inr g, t)
  | (inl e, _, t) => (inl e, t)
  end.

End Startup.

(** [@validator('*')] *)
Definition check_not_negative (v : float) : exn + float :=
  if float_lt v float_zero then inl (ValueError "Value must be non-negative")
  else inr v.

Definition PenguinFeatures_validate : gmap string pyobj → validation :=
  validate_model inr check_not_negative.

Definition predict (features : PenguinFeatures) : M pyobj :=
  (let data := [[bill_length_mm features;
                 bill_depth_mm features;
                 flipper_length_mm features;
                 body_mass_g features]] in
   preds <- model_predict data ;;
   pred <- getitem0 preds ;;
   ret (PyDict {["prediction"%string := PyInt pred]}))%py.

(** [@app.post("/predict")] *)
Definition post_predict
    : gmap string pyobj → Globals → Response * Globals * list event :=
  route PenguinFeatures_validate predict.

End Main.

(** ** test_api.py *)

Module Test_api.

(** [@validator('*', pre=True)] *)
Definition check_not_negative (v : pyobj) : exn + pyobj :=
  let negative :=
    match v with
    | PyInt z => z <? 0
    | PyBool _ => false
    | PyFloat x => float_lt x float_zero
    | _ => false
    end in
  if negative then inl (ValueError "Value must be non-negative") else inr v.

Definition PenguinFeatures_validate : gmap string pyobj → validation :=
  validate_model check_not_negative inr.

Definition predict (features : PenguinFeatures) : M pyobj :=
  (m <- get_global model ;;
   match m with
   | None => raise (HTTPException 500 "Model not loaded")
   | Some _ =>
       let data := [[bill_length_mm features;
                     bill_depth_mm features;
                     flipper_length_mm features;
                     body_mass_g features]] in
       preds <- model_predict data ;;
       pred <- getitem0 preds ;;
       ret (PyDict {["prediction"%string := PyInt pred]})
   end)%py.

Definition post_predict
    : gmap string pyobj → Globals → Response * Globals * list event :=
  route PenguinFeatures_validate predict.

(** The bodies that the tests post. *)
Definition valid_input : gmap string pyobj :=
  <["bill_length_mm"%string := PyFloat (float_literal "39.1")]>
  (<["bill_depth_mm"%string := PyFloat (float_literal "18.7")]>
   (<["flipper_length_mm"%string := PyInt 181]>
    {["body_mass_g"%string := PyInt 3750]})).

Definition missing_field : gmap string pyobj :=
  delete "body_mass_g"%string valid_input.

Definition invalid_type : gmap string pyobj :=
  <["bill_length_mm"%string := PyStr "invalid"]> valid_input.

Definition out_of_range : gmap string pyobj :=
  <["bill_length_mm"%string := PyInt 500]>
  (<["body_mass_g"%string := PyInt (-50)]> valid_input).

End Test_api.

(** ** train.py *)

Module Train.

(** The columns that [train_and_save_model] selects for [X]. *)
Definition X_columns : list string :=
  ["bill_length_mm"; "bill_depth_mm"; "flipper_length_mm"; "body_mass_g"]%string.

End Train.

(** ** locustfile.py *)

Module Locustfile.

(** The body that [PredictUser.predict] posts, for the numbers and the
    word it has drawn. *)
Definition payload (bill_length bill_depth flipper_length body_mass : float)
    (sex : string) : gmap string pyobj :=
  <["bill_length_mm"%string := PyFloat bill_length]>
  (<["bill_depth_mm"%string := PyFloat bill_depth]>
   (<["flipper_length_mm"%string := PyFloat flipper_length]>
    (<["body_mass_g"%string := PyFloat body_mass]>
     {["sex"%string := PyStr sex]}))).

End Locustfile.

(** ** test_api.py: the model of the tests *)

Module Test_setup.

Definition is_XGBoostError (e : exn) : bool :=
  match e with
  | OtherException name _ => String.eqb name "XGBoostError"
  | _ => false
  end.

(** The statements of the module from [model = xgb.XGBClassifier()] to the
    end of the [except] clause: only an [XGBoostError] of the loader is
    caught, and it leaves [model = None]. *)
Definition load_at_import (w : Main.World) : M unit :=
  try_except
    (emit (LoadModel "penguin_model.json") ;;;
     match Main.load_model w "penguin_model.json" with
     | inl e => raise e
     | inr clf => Main.set_model (Some clf)
     end)%py
    is_XGBoostError
    (λ e,
       emit (Print ("Warning: penguin_model.json not found. "
                    ++ "Model loading skipped for tests.")) ;;;
       Main.set_model None)%py.

Definition start (w : Main.World) : (exn + Globals) * list event :=
  match load_at_import w Main.unbound with
  | (inr _, g, t) => (inr g, t)
  | (inl e, _, t) => (inl e, t)
  end.

End Test_setup.

(** ** Vocabulary of the request contract *)

(** The ints that [float] converts: those below the half-way point between
    the largest float and [2 ^ 1024]. *)
Definition fits_float (z : Z) : bool := Z.abs z <? 2 ^ 1024 - 2 ^ 970.

(** An int beyond every float. *)
Definition huge : Z := 10 ^ 400.


(** A number below 0. *)
Definition negative_number (v : pyobj) : bool :=
  match v with
  | PyInt z => z <? 0
  | PyFloat x => float_lt x float_zero
  | _ => false
  end.

(** A value that is not a number. *)
Definition non_numeric (v : pyobj) : bool :=
  match v with
  | PyInt _ | PyFloat _ => false
  | _ => true
  end.

(** The number 0, as an int or as a float. *)
Definition is_zero (v : pyobj) : bool :=
  match v with
  | PyInt z => z =? 0
  | PyFloat (S754_zero _) => true
  | _ => false
  end.

(** No required field of the body holds an int that [float] does not
    convert. *)
Definition ints_fit (body : gmap string pyobj) : bool :=
  forallb (λ name, match body !! name with
                   | Some (PyInt z) => fits_float z
                   | _ => true
                   end) fields.


(** The body with exactly the four required fields. *)
Definition request (bill_length bill_depth flipper_length body_mass : pyobj)
    : gmap string pyobj :=
  <["bill_length_mm"%string := bill_length]>
  (<["bill_depth_mm"%string := bill_depth]>
   (<["flipper_length_mm"%string := flipper_length]>
    {["body_mass_g"%string := body_mass]})).

(** The globals of a process that has started with classifier [clf]. *)
Definition loaded (path : string) (clf : XGBClassifier) : Globals :=
  {| MODEL_PATH := Some path; model := Some clf |}.

Definition prediction (pred : Z) : Response :=
  {| status_code := 200;
     content := PyDict {["prediction"%string := PyInt pred]} |}.


(** A classifier with three classes, for the examples: a stump on the bill
    length and the flipper length. *)
Definition stump : XGBClassifier :=
  {| predict_row := λ row,
       match row with
       | bill :: _ :: flipper :: _ =>
           if float_ge flipper (float_literal "205") then 2
           else if float_ge bill (float_literal "45") then 1 else 0
       | _ => 0
       end |}.

(** A classifier that has a fourth class. *)
Definition four_classes : XGBClassifier :=
  {| predict_row := λ row,
       match row with
       | bill :: _ =>
           if float_ge bill (float_literal "60") then 3
           else predict_row stump row
       | _ => 0
       end |}.

(** The result and the trace of the remote fetch in a world. *)
Definition remote_fetch (w : Main.World) : (exn + string) * list event :=
  let '(r, _, t) := Main.download_model_from_gcs w Main.unbound in (r, t).

(** One of the two configuration values is not set, or is empty. *)
Definition config_missing (w : Main.World) : bool :=
  Main.not_ (Main.environ w !! "GCS_BUCKET_NAME"%string)
  || Main.not_ (Main.environ w !! "GCS_BLOB_NAME"%string).

(** What loading the artifact at [path] gives to the process. *)
Definition load (w : Main.World) (path : string) : exn + Globals :=
  match Main.load_model w path with
  | inl e => inl e
  | inr clf => inr (loaded path clf)
  end.

(** What the [except] clause of the start does after the trace [t] and the
    exception [e] of the fetch. *)
Definition falls_back (w : Main.World) (t : list event) (e : exn) : Prop :=
  let t' := t ++ [Print ("Failed to load model from GCS: " ++ str_exn e);
                  PathExists "penguin_model.json"] in
  if Main.os_path_exists w "penguin_model.json" then
    Main.start w
    = (load w "penguin_model.json", t' ++ [LoadModel "penguin_model.json"])
  else Main.start w = (inl (RuntimeError "No model available"), t').

(** Worlds for the examples: a workstation with the local file and no
    configuration, a deployment where the object is fetched, a deployment
    where the object is missing and there is no local file, one where the
    object that is fetched cannot be loaded although a good local file
    exists, one with no artifact at all, and one where the fetch is
    interrupted from the keyboard. *)
Module Worlds.

Definition artifact (path : string) : exn + XGBClassifier :=
  if (String.eqb path "penguin_model.json" || String.eqb path "/tmp/tmp0")%bool
  then inr stump
  else inl (OtherException "XGBoostError" "No such file").

Definition workstation : Main.World :=
  {| Main.environ := ∅;
     Main.gcs_download := λ _ _,
       inl (OtherException "DefaultCredentialsError" "no credentials");
     Main.os_path_exists := String.eqb "penguin_model.json";
     Main.load_model := artifact |}.

Definition configured : gmap string string :=
  <["GCS_BUCKET_NAME"%string := "penguins"%string]>
  {["GCS_BLOB_NAME"%string := "penguin_model.json"%string]}.

Definition deployment : Main.World :=
  {| Main.environ := configured;
     Main.gcs_download := λ _ _, inr "/tmp/tmp0"%string;
     Main.os_path_exists := λ _, false;
     Main.load_model := artifact |}.

Definition missing_object : Main.World :=
  {| Main.environ := configured;
     Main.gcs_download := λ _ _,
       inl (OtherException "NotFound" "404 No such object");
     Main.os_path_exists := λ _, false;
     Main.load_model := artifact |}.

End Worlds.

Definition corrupt_download : Main.World :=
  {| Main.environ := Worlds.configured;
     Main.gcs_download := λ _ _, inr "/tmp/tmp1"%string;
     Main.os_path_exists := String.eqb "penguin_model.json";
     Main.load_model := Worlds.artifact |}.

Definition no_artifact : Main.World :=
  {| Main.environ := ∅;
     Main.gcs_download := λ _ _,
       inl (OtherException "DefaultCredentialsError" "no credentials");
     Main.os_path_exists := λ _, false;
     Main.load_model := λ _,
       inl (OtherException "XGBoostError" "No such file") |}.

Definition interrupted : Main.World :=
  {| Main.environ := Worlds.configured;
     Main.gcs_download := λ _ _, inl KeyboardInterrupt;
     Main.os_path_exists := String.eqb "penguin_model.json";
     Main.load_model := Worlds.artifact |}.

(** * Properties *)

(** ** Floats and the builtin [float] *)

Example float_of_literal :
  float_ (PyStr "39.1") = inr (S754_finite false 5502835794693325 (-47)).
Proof. vm_compute. reflexivity. Qed.

Example float_of_exponent :
  float_ (PyStr " -1_0.5e+1 ") = inr (S754_finite true 7388718138654720 (-46)).
Proof. vm_compute. reflexivity. Qed.

Example float_of_word :
  float_ (PyStr "invalid")
  = inl (ValueError "could not convert string to float").
Proof. vm_compute. reflexivity. Qed.

Example float_of_other_digits :
  float_ (PyStr "٣٩") = float_ (PyStr "39").
Proof. vm_compute. reflexivity. Qed.

Example float_of_tiny : float_ (PyStr "-1e-400") = inr (S754_zero true).
Proof. vm_compute. reflexivity. Qed.

Example float_of_large : float_ (PyStr "1e400") = inr (S754_infinity false).
Proof. vm_compute. reflexivity. Qed.

Example float_of_huge :
  float_ (PyInt huge)
  = inl (OverflowError "int too large to convert to float").
Proof. vm_compute. reflexivity. Qed.

Lemma float_ge_int_zero x : float_ge_int x 0 = float_ge x float_zero.
Proof.
  destruct x as [s | s | | s m e]; [by destruct s | by destruct s | done |].
  unfold float_ge_int, float_ge, SFleb. simpl.
  destruct (Z.leb_spec 0 e) as [He | He].
  - assert (0 < 2 ^ e) by (by apply Z.pow_pos_nonneg).
    destruct s; [apply Z.leb_gt | apply Z.leb_le]; nia.
  - by destruct s.
Qed.

Lemma float_ge_zero_not_lt x :
  float_ge x float_zero = true → float_lt x float_zero = false.
Proof. by destruct x as [[] | [] | | [] m e]. Qed.

Lemma float_lt_zero_not_ge x :
  float_lt x float_zero = true → float_ge x float_zero = false.
Proof. by destruct x as [[] | [] | | [] m e]. Qed.

Lemma div_half_even_cases num den :
  0 < den →
  let q := num / den in
  let r := num mod den in
  (div_half_even num den = q
   ∧ (2 * r < den ∨ 2 * r = den ∧ Z.even q = true))
  ∨ (div_half_even num den = q + 1
     ∧ (den < 2 * r ∨ 2 * r = den ∧ Z.even q = false)).
Proof.
  intros Hden q r. unfold div_half_even. fold q r.
  destruct (Z.compare_spec (2 * r) den) as [He | Hl | Hg].
  - destruct (Z.even q) eqn:Hq; [left | right]; split; auto.
  - left. split; [done | lia].
  - right. split; [done | lia].
Qed.

(** An int is rounded to a float when it is below the half-way point
    between the largest float and [2 ^ 1024], and to an infinity from
    there on. *)
Lemma round_binary64_int s p :
  (Z.pos p < 2 ^ 1024 - 2 ^ 970 →
   ∃ m e, round_binary64 s p 1 = S754_finite s m e)
  ∧ (2 ^ 1024 - 2 ^ 970 <= Z.pos p →
     round_binary64 s p 1 = S754_infinity s).
Proof.
  unfold round_binary64.
  change (Z.log2 1) with 0. rewrite Z.sub_0_r.
  set (z := Z.pos p). set (k := Z.log2 z).
  assert (0 < z) as Hz by done.
  destruct (Z.log2_spec z Hz) as [Hlo Hhi]. fold k in Hlo, Hhi.
  assert (0 <= k) as Hk by apply Z.log2_nonneg.
  assert (pow2_le k p 1 = true) as ->.
  { unfold pow2_le. destruct (Z.leb_spec 0 k); [| lia].
    apply Z.leb_le. change (Z.pos p) with z. lia. }
  rewrite (Z.max_l (k - 52) (-1074)) by lia.
  destruct (Z_le_gt_dec k 52) as [Hsmall | Hbig].
  - (* the integer is a float *)
    rewrite (Z.max_r 0 (- (k - 52))), (Z.max_l 0 (k - 52)) by lia.
    change (1 * 2 ^ 0) with 1.
    unfold div_half_even. rewrite Z.div_1_r, Z.mod_1_r. simpl Z.compare.
    cbv iota.
    assert (2 ^ (k + 1) * 2 ^ (- (k - 52)) = 2 ^ 53) as Hp.
    { rewrite <- Z.pow_add_r by lia. f_equal. lia. }
    assert (0 < 2 ^ (- (k - 52))) by (apply Z.pow_pos_nonneg; lia).
    assert (0 < z * 2 ^ (- (k - 52)) < 2 ^ 53) as [Hm1 Hm2] by nia.
    destruct (Z.eqb_spec (z * 2 ^ (- (k - 52))) (2 ^ 53)); [lia |].
    destruct (z * 2 ^ (- (k - 52))) as [| m | m] eqn:Hm; try lia.
    destruct (Z.leb_spec (k - 52) 971); [| lia].
    split; [eauto |].
    intros Hge. exfalso.
    assert (2 ^ 53 < 2 ^ 1024 - 2 ^ 970) by (vm_compute; reflexivity).
    assert (2 ^ (k + 1) <= 2 ^ 53) by (apply Z.pow_le_mono_r; lia).
    lia.
  - rewrite (Z.max_l 0 (- (k - 52))), (Z.max_r 0 (k - 52)) by lia.
    rewrite Z.pow_0_r, Z.mul_1_r, Z.mul_1_l. fold z.
    set (D := 2 ^ (k - 52)).
    assert (0 < D) as HD by (apply Z.pow_pos_nonneg; lia).
    assert (2 ^ k = 2 ^ 52 * D) as Hk52.
    { unfold D. rewrite <- Z.pow_add_r by lia. f_equal. lia. }
    assert (2 ^ (k + 1) = 2 ^ 53 * D) as Hk53.
    { unfold D. rewrite <- Z.pow_add_r by lia. f_equal. lia. }
    pose proof (Z.div_mod z D ltac:(lia)) as Hdm.
    pose proof (Z.mod_pos_bound z D HD) as Hr.
    assert (2 ^ 52 <= z / D < 2 ^ 53) as [Hq1 Hq2].
    { split.
      - apply Z.div_le_lower_bound; lia.
      - apply Z.div_lt_upper_bound; lia. }
    assert (2 ^ 1024 - 2 ^ 970 = (2 ^ 53 - 1) * 2 ^ 971 + 2 ^ 970)
      as HL by (vm_compute; reflexivity).
    assert (2 ^ 971 = 2 * 2 ^ 970) as H971 by (vm_compute; reflexivity).
    assert (2 ^ 1023 < 2 ^ 1024 - 2 ^ 970) as H1023
      by (vm_compute; reflexivity).
    assert (2 ^ 1024 - 2 ^ 970 < 2 ^ 1024) as H1024
      by (vm_compute; reflexivity).
    assert (Z.even (2 ^ 53 - 1) = false) as Hodd by reflexivity.
    assert (k <= 1022 → z < 2 ^ 1024 - 2 ^ 970) as Hlow.
    { intros ?.
      assert (2 ^ (k + 1) <= 2 ^ 1023) by (apply Z.pow_le_mono_r; lia). lia. }
    assert (1024 <= k → 2 ^ 1024 - 2 ^ 970 <= z) as Hhigh.
    { intros ?.
      assert (2 ^ 1024 <= 2 ^ k) by (apply Z.pow_le_mono_r; lia). lia. }
    assert (k = 1023 → D = 2 ^ 971) as Hmid.
    { intros ->. reflexivity. }
    destruct (div_half_even_cases z D HD) as [[Hm Hrr] | [Hm Hrr]];
      cbv zeta in *; rewrite Hm; clear Hm.
    + (* rounded down *)
      destruct (Z.eqb_spec (z / D) (2 ^ 53)); [lia |].
      destruct (z / D) as [| m | m] eqn:Hq; try lia.
      destruct (Z.leb_spec (k - 52) 971) as [Hfin | Hinf].
      * split; [eauto |]. intros Hge. exfalso.
        destruct (Z_le_gt_dec k 1022) as [Hk1 | Hk1]; [specialize (Hlow Hk1); lia |].
        rewrite (Hmid ltac:(lia)) in *.
        assert (Z.pos m = 2 ^ 53 - 1) as Hmq by nia.
        rewrite Hmq in *.
        destruct Hrr as [Hrr | [Hrr Hev]]; [nia | congruence].
      * split; [| done]. intros Hlt. specialize (Hhigh ltac:(lia)). lia.
    + (* rounded up *)
      destruct (Z.eqb_spec (z / D + 1) (2 ^ 53)) as [Htop | Htop].
      * change (2 ^ 52) with (Z.pos (2 ^ 52)%positive).
        destruct (Z.leb_spec (k - 52 + 1) 971) as [Hfin | Hinf].
        -- split; [eauto |]. intros Hge. specialize (Hlow ltac:(lia)). lia.
        -- split; [| done]. intros Hlt. exfalso.
           destruct (Z_le_gt_dec 1024 k) as [Hk1 | Hk1];
             [specialize (Hhigh Hk1); lia |].
           rewrite (Hmid ltac:(lia)) in *. nia.
      * destruct (z / D + 1) as [| m | m] eqn:Hq; try lia.
        destruct (Z.leb_spec (k - 52) 971) as [Hfin | Hinf].
        -- split; [eauto |]. intros Hge. exfalso.
           destruct (Z_le_gt_dec k 1022) as [Hk1 | Hk1];
             [specialize (Hlow Hk1); lia |].
           rewrite (Hmid ltac:(lia)) in *. nia.
        -- split; [| done]. intros Hlt. specialize (Hhigh ltac:(lia)). lia.
Qed.

Lemma float_of_int_overflow z :
  fits_float z = false →
  float_of_int z = inl (OverflowError "int too large to convert to float").
Proof.
  unfold fits_float. intros H%Z.ltb_ge.
  destruct z as [| p | p].
  - by vm_compute in H.
  - destruct (round_binary64_int false p) as [_ Hinf].
    unfold float_of_int. by rewrite Hinf.
  - destruct (round_binary64_int true p) as [_ Hinf].
    unfold float_of_int. by rewrite Hinf.
Qed.

Lemma float_of_int_fits z :
  fits_float z = true →
  ∃ x, float_of_int z = inr x
       ∧ float_ge x float_zero = (0 <=? z)
       ∧ float_lt x float_zero = (z <? 0).
Proof.
  unfold fits_float. intros H%Z.ltb_lt.
  destruct z as [| p | p].
  - by exists float_zero.
  - destruct (round_binary64_int false p) as [Hfin _].
    destruct Hfin as (m & e & Hr); [done |].
    exists (S754_finite false m e). unfold float_of_int. by rewrite Hr.
  - destruct (round_binary64_int true p) as [Hfin _].
    destruct Hfin as (m & e & Hr); [done |].
    exists (S754_finite true m e). unfold float_of_int. by rewrite Hr.
Qed.

(** ** Validation, field by field *)

Section Validation.
Context (pre : pyobj → exn + pyobj) (post : float → exn + float).
Context (input : gmap string pyobj).

Lemma validate_model_accepts a b c d :
  validate_field pre post input "bill_length_mm" = Valid a →
  validate_field pre post input "bill_depth_mm" = Valid b →
  validate_field pre post input "flipper_length_mm" = Valid c →
  validate_field pre post input "body_mass_g" = Valid d →
  validate_model pre post input
  = Accepted {| bill_length_mm := a; bill_depth_mm := b;
                flipper_length_mm := c; body_mass_g := d |}.
Proof.
  intros Ha Hb Hc Hd. unfold validate_model. by rewrite Ha, Hb, Hc, Hd.
Qed.

Lemma validate_model_inv features :
  validate_model pre post input = Accepted features →
  validate_field pre post input "bill_length_mm"
    = Valid (bill_length_mm features)
  ∧ validate_field pre post input "bill_depth_mm"
    = Valid (bill_depth_mm features)
  ∧ validate_field pre post input "flipper_length_mm"
    = Valid (flipper_length_mm features)
  ∧ validate_field pre post input "body_mass_g"
    = Valid (body_mass_g features).
Proof.
  unfold validate_model.
  destruct (validate_field pre post input "bill_length_mm"),
    (validate_field pre post input "bill_depth_mm"),
    (validate_field pre post input "flipper_length_mm"),
    (validate_field pre post input "body_mass_g");
    intros [= <-]; done.
Qed.


Lemma validate_model_raises name e :
  name ∈ fields →
  validate_field pre post input name = Raises e →
  ∃ e', validate_model pre post input = Raised e'.
Proof.
  unfold fields. intros Hname He.
  repeat (apply elem_of_cons in Hname as [-> | Hname]);
    [ .. | by apply elem_of_nil in Hname ];
    unfold validate_model; rewrite He;
    repeat match goal with
      | |- context [validate_field pre post input ?n] =>
          destruct (validate_field pre post input n)
      end; by eexists.
Qed.


Lemma validate_model_errors errors :
  validate_model pre post input = Refused errors →
  errors ≠ []
  ∧ errors
    = omap (λ name, match validate_field pre post input name with
                    | Invalid e => Some {| exc := e; loc := name |}
                    | _ => None
                    end) fields.
Proof.
  unfold validate_model, fields. simpl.
  destruct (validate_field pre post input "bill_length_mm"),
    (validate_field pre post input "bill_depth_mm"),
    (validate_field pre post input "flipper_length_mm"),
    (validate_field pre post input "body_mass_g");
    intros [= <-]; done.
Qed.

End Validation.


(** ** The fields of main.py *)


Module MainFacts.

Abbreviation field := (validate_field inr Main.check_not_negative).

Lemma check_not_negative_after_bound x y :
  number_size_validator 0 x = Valid y → Main.check_not_negative y = inr y.
Proof.
  unfold number_size_validator, Main.check_not_negative.
  rewrite float_ge_int_zero.
  destruct (float_ge x float_zero) eqn:Hge; intros [= <-].
  by rewrite (float_ge_zero_not_lt _ Hge).
Qed.

(** A float that is at least 0 passes the bound and the validator. *)
Lemma bound_and_validator x :
  float_ge x float_zero = true →
  match number_size_validator 0 x with
  | Raises e => Raises e
  | Invalid e => Invalid e
  | Valid x => apply_validator Main.check_not_negative x
  end = Valid x.
Proof.
  intros Hge. unfold number_size_validator, apply_validator,
    Main.check_not_negative.
  by rewrite float_ge_int_zero, Hge, (float_ge_zero_not_lt _ Hge).
Qed.

(** A float that is not at least 0 fails the bound. *)
Lemma bound_refuses x :
  float_ge x float_zero = false →
  match number_size_validator 0 x with
  | Raises e => Raises e
  | Invalid e => Invalid e
  | Valid x => apply_validator Main.check_not_negative x
  end = Invalid (NumberNotGeError 0).
Proof.
  intros Hge. unfold number_size_validator.
  by rewrite float_ge_int_zero, Hge.
Qed.

Lemma field_missing (input : gmap string pyobj) name :
  input !! name = None → field input name = Invalid MissingError.
Proof. intros H. unfold validate_field. by rewrite H. Qed.

(** What the validation of a field does with the value it holds, by what
    [float] makes of the value. *)
Lemma field_of_value (input : gmap string pyobj) name v :
  input !! name = Some v →
  field input name
  = match v with
    | PyNone => Invalid NoneIsNotAllowedError
    | _ =>
        match float_ v with
        | inr x =>
            if float_ge x float_zero then Valid x
            else Invalid (NumberNotGeError 0)
        | inl (TypeError _) | inl (ValueError _) => Invalid FloatError
        | inl e => Raises e
        end
    end.
Proof.
  intros Hv. unfold validate_field. rewrite Hv.
  unfold apply_validator at 1.
  destruct v as [| b | z | y | s | l | d]; try done; lazy beta iota.
  - unfold float_validator.
    destruct (float_ (PyBool b)) as [[] | x]; try done.
    destruct (float_ge x float_zero) eqn:Hge;
      [by apply bound_and_validator | by apply bound_refuses].
  - unfold float_validator.
    destruct (float_ (PyInt z)) as [[] | x]; try done.
    destruct (float_ge x float_zero) eqn:Hge;
      [by apply bound_and_validator | by apply bound_refuses].
  - unfold float_validator. cbn [float_].
    destruct (float_ge y float_zero) eqn:Hge;
      [by apply bound_and_validator | by apply bound_refuses].
  - unfold float_validator.
    destruct (float_ (PyStr s)) as [[] | x]; try done.
    destruct (float_ge x float_zero) eqn:Hge;
      [by apply bound_and_validator | by apply bound_refuses].
Qed.

Lemma float_raises v e :
  float_ v = inl e →
  (∃ z, v = PyInt z ∧ fits_float z = false
        ∧ e = OverflowError "int too large to convert to float")
  ∨ (∀ z, v ≠ PyInt z) ∧ (∃ msg, e = TypeError msg ∨ e = ValueError msg).
Proof.
  destruct v as [| b | z | y | s | l | d]; simpl.
  - intros [= <-]. right. split; [done | eauto].
  - by destruct b.
  - destruct (fits_float z) eqn:Hz.
    + destruct (float_of_int_fits z Hz) as (x & -> & _). done.
    + rewrite (float_of_int_overflow z Hz). intros [= <-]. left. eauto.
  - done.
  - destruct (PyFloatParse.floatvalue s); [done |].
    intros [= <-]. right. split; [done | eauto].
  - intros [= <-]. right. split; [done | eauto].
  - intros [= <-]. right. split; [done | eauto].
Qed.

(** The validation of a field raises exactly when the field holds an int
    that [float] does not convert. *)
Lemma field_raises_iff (input : gmap string pyobj) name e :
  field input name = Raises e
  ↔ ∃ z, input !! name = Some (PyInt z) ∧ fits_float z = false
         ∧ e = OverflowError "int too large to convert to float".
Proof.
  split.
  - destruct (input !! name) as [v |] eqn:Hv;
      [| by rewrite (field_missing _ _ Hv)].
    rewrite (field_of_value _ _ _ Hv).
    destruct (float_ v) as [e' | x] eqn:Hf.
    + destruct (float_raises _ _ Hf) as [(z & -> & Hz & ->) | [Hni [msg [-> | ->]]]].
      * intros [= <-]. eauto.
      * by destruct v.
      * by destruct v.
    + destruct v; try done; by destruct (float_ge x float_zero).
  - intros (z & Hv & Hz & ->).
    rewrite (field_of_value _ _ _ Hv). simpl.
    by rewrite (float_of_int_overflow z Hz).
Qed.





(** What a field holds once the body has been accepted. *)
Lemma field_accepted (input : gmap string pyobj) name x :
  field input name = Valid x
  ↔ ∃ v, input !! name = Some v ∧ float_ v = inr x
         ∧ float_ge x float_zero = true.
Proof.
  split.
  - destruct (input !! name) as [v |] eqn:Hv;
      [| by rewrite (field_missing _ _ Hv)].
    rewrite (field_of_value _ _ _ Hv). intros H. exists v. split; [done |].
    destruct (float_ v) as [e | y] eqn:Hf.
    + destruct v; try done; by destruct e.
    + destruct (float_ge y float_zero) eqn:Hge;
        destruct v; try done; by simplify_eq.
  - intros (v & Hv & Hf & Hge).
    rewrite (field_of_value _ _ _ Hv), Hf, Hge.
    destruct v; try done.
Qed.

End MainFacts.

(** ** The route *)


Lemma route_raises validate endpoint body g e :
  validate body = Raised e →
  route validate endpoint body g = (internal_server_error, g, []).
Proof. intros H. unfold route. by rewrite H. Qed.

Lemma main_predict_loaded features g clf :
  model g = Some clf →
  Main.predict features g
  = (inr (PyDict {["prediction"%string :=
                     PyInt (predict_row clf
                              [bill_length_mm features;
                               bill_depth_mm features;
                               flipper_length_mm features;
                               body_mass_g features])]}),
     g,
     [Predict [[bill_length_mm features; bill_depth_mm features;
                flipper_length_mm features; body_mass_g features]]]).
Proof.
  intros Hm. unfold Main.predict, model_predict, bind, get_global, emit, ret.
  rewrite Hm. reflexivity.
Qed.

Lemma main_route_accepts body features g clf :
  Main.PenguinFeatures_validate body = Accepted features →
  model g = Some clf →
  Main.post_predict body g
  = (prediction (predict_row clf
                   [bill_length_mm features; bill_depth_mm features;
                    flipper_length_mm features; body_mass_g features]),
     g,
     [Predict [[bill_length_mm features; bill_depth_mm features;
                flipper_length_mm features; body_mass_g features]]]).
Proof.
  intros Hv Hm. unfold Main.post_predict, route.
  rewrite Hv, (main_predict_loaded _ _ _ Hm). reflexivity.
Qed.


Lemma main_route_overflow body g name z :
  name ∈ fields → body !! name = Some (PyInt z) → fits_float z = false →
  Main.post_predict body g = (internal_server_error, g, []).
Proof.
  intros Hname Hv Hz.
  destruct (validate_model_raises inr Main.check_not_negative body name
              (OverflowError "int too large to convert to float") Hname)
    as (e' & He').
  { apply MainFacts.field_raises_iff. eauto. }
  by apply route_raises with e'.
Qed.



(** ** The request contract of main.py *)

(** C1, as stated, fails.  An int is a number, and [huge] is at least 0,
    but [float] does not convert it and the validation does not catch the
    [OverflowError]: the answer is 500.  And the label of the answer is
    what the loaded classifier gives, which the code does not check: with
    a classifier of four classes the answer can be 3. *)
Lemma huge_int_server_error :
  let g := loaded "penguin_model.json" stump in
  (non_numeric (PyInt huge) = false ∧ 0 <= huge
   ∧ Main.post_predict
       (request (PyInt huge) (PyFloat (float_literal "18.7"))
                (PyInt 181) (PyInt 3750)) g
     = (internal_server_error, g, []))
  ∧ ∃ t,
      Main.post_predict
        (request (PyFloat (float_literal "62.5"))
                 (PyFloat (float_literal "18.7")) (PyInt 181) (PyInt 3750))
        (loaded "penguin_model.json" four_classes)
      = (prediction 3, loaded "penguin_model.json" four_classes, t).
Proof.
  split.
  - split; [done |]. split; [by vm_compute |].
    apply (main_route_overflow _ _ "bill_length_mm" huge);
      [unfold fields; set_solver | done | by vm_compute].
  - eexists. vm_compute. reflexivity.
Qed.



(** C3, as stated, fails: a negative int that [float] does not convert
    makes the validation raise, and the answer is 500. *)
Lemma negative_huge_int_server_error :
  let body := <["body_mass_g"%string := PyInt (- huge)]> Test_api.valid_input in
  let g := loaded "penguin_model.json" stump in
  body !! "body_mass_g"%string = Some (PyInt (- huge))
  ∧ negative_number (PyInt (- huge)) = true
  ∧ Main.post_predict body g = (internal_server_error, g, []).
Proof.
  split; [done |]. split; [by vm_compute |].
  apply (main_route_overflow _ _ "body_mass_g" (- huge));
    [unfold fields; set_solver | done | by vm_compute].
Qed.



(** C4, as stated, fails: when another field holds an int that [float]
    does not convert, the body that lacks a field is answered with 500. *)
Lemma missing_field_server_error :
  let body := <["bill_length_mm"%string := PyInt huge]> Test_api.missing_field in
  let g := loaded "penguin_model.json" stump in
  body !! "body_mass_g"%string = None
  ∧ Main.post_predict body g = (internal_server_error, g, []).
Proof.
  split; [done |].
  apply (main_route_overflow _ _ "bill_length_mm" huge);
    [unfold fields; set_solver | done | by vm_compute].
Qed.






(** C9, as stated, fails: with one field exactly 0 and another an int that
    [float] does not convert, the body is not accepted and the classifier
    is not reached. *)
Lemma zero_with_huge_int_server_error :
  let g := loaded "penguin_model.json" stump in
  is_zero (PyInt 0) = true ∧ 0 <= huge
  ∧ Main.post_predict
      (request (PyInt 0) (PyInt huge) (PyInt 181) (PyInt 3750)) g
    = (internal_server_error, g, []).
Proof.
  split; [done |]. split; [by vm_compute |].
  apply (main_route_overflow _ _ "bill_depth_mm" huge);
    [unfold fields; set_solver | done | by vm_compute].
Qed.



(** ** The handler of main.py *)

(** C6. For a body that the validation accepts, the handler calls the
    classifier once, on one row that holds the four features in the order
    of the columns that the training selects, each the float of the value
    posted under that name, and answers with the label of that row as an
    integer. *)
Theorem predict_feature_order body features g clf :
  Main.PenguinFeatures_validate body = Accepted features →
  model g = Some clf →
  ∃ row,
    map (getattr features) Train.X_columns = map Some row
    ∧ Forall2 (λ name x, ∃ v, body !! name = Some v ∧ float_ v = inr x)
        Train.X_columns row
    ∧ Main.post_predict body g
      = (prediction (predict_row clf row), g, [Predict [row]]).
Proof.
  intros Hv Hm.
  exists [bill_length_mm features; bill_depth_mm features;
          flipper_length_mm features; body_mass_g features].
  split; [reflexivity |]. split.
  - apply validate_model_inv in Hv as (Ha & Hb & Hc & Hd).
    apply MainFacts.field_accepted in Ha as (va & ? & ? & _).
    apply MainFacts.field_accepted in Hb as (vb & ? & ? & _).
    apply MainFacts.field_accepted in Hc as (vc & ? & ? & _).
    apply MainFacts.field_accepted in Hd as (vd & ? & ? & _).
    unfold Train.X_columns. repeat constructor; eauto.
  - by apply main_route_accepts.
Qed.

Lemma predict_feature_order_witness :
  ∃ row,
    map (getattr {| bill_length_mm := float_literal "39.1";
                    bill_depth_mm := float_literal "18.7";
                    flipper_length_mm := float_literal "181";
                    body_mass_g := float_literal "3750" |}) Train.X_columns
    = map Some row
    ∧ Forall2 (λ name x, ∃ v, Test_api.valid_input !! name = Some v
                              ∧ float_ v = inr x)
        Train.X_columns row
    ∧ Main.post_predict Test_api.valid_input
        (loaded "penguin_model.json" stump)
      = (prediction (predict_row stump row),
         loaded "penguin_model.json" stump, [Predict [row]]).
Proof.
  apply (predict_feature_order Test_api.valid_input
           {| bill_length_mm := float_literal "39.1";
              bill_depth_mm := float_literal "18.7";
              flipper_length_mm := float_literal "181";
              body_mass_g := float_literal "3750" |}
           (loaded "penguin_model.json" stump) stump);
    vm_compute; reflexivity.
Defined.

(** C10, as stated, fails: with a value that is a number and at least 0
    but that [float] does not convert, the body is not accepted, with the
    further name or without it. *)
Lemma extra_field_with_huge_int_server_error :
  let g := loaded "penguin_model.json" stump in
  non_numeric (PyInt huge) = false ∧ 0 <= huge
  ∧ Main.post_predict
      (request (PyInt huge) (PyFloat (float_literal "18.7"))
               (PyInt 181) (PyInt 3750)
       ∪ {["sex"%string := PyStr "Female"]}) g
    = (internal_server_error, g, []).
Proof.
  split; [done |]. split; [by vm_compute |].
  apply (main_route_overflow _ _ "bill_length_mm" huge);
    [unfold fields; set_solver | done | by vm_compute].
Qed.



(** The body of the load test is such a body. *)
Example locust_payload bill_length bill_depth flipper_length body_mass sex :
  Locustfile.payload bill_length bill_depth flipper_length body_mass sex
  = request (PyFloat bill_length) (PyFloat bill_depth)
            (PyFloat flipper_length) (PyFloat body_mass)
    ∪ {["sex"%string := PyStr sex]}.
Proof.
  apply map_eq. intros name.
  unfold Locustfile.payload, request.
  rewrite lookup_union, !lookup_insert.
  repeat case_decide; simplify_map_eq; try done.
  rewrite lookup_singleton. case_decide; simplify_map_eq; by try rewrite lookup_empty.
Qed.

(** ** Requests one after the other *)

(** The handler of main.py assigns no global. *)
Lemma main_post_predict_globals body g :
  (Main.post_predict body g).1.2 = g.
Proof.
  unfold Main.post_predict, route.
  destruct (Main.PenguinFeatures_validate body) as [features | errors | e];
    [| done | done].
  unfold Main.predict, model_predict, bind, get_global.
  by destruct (model g).
Qed.

Section Serve.
Variable app : gmap string pyobj → Globals → Response * Globals * list event.
Hypothesis app_globals : ∀ body g, (app body g).1.2 = g.

Lemma serve_globals requests g : (serve app requests g).1.2 = g.
Proof.
  induction requests as [| body rest IH]; [done |]. simpl.
  specialize (app_globals body g).
  destruct (app body g) as [[r g'] t]. simpl in app_globals. subst g'.
  destruct (serve app rest g) as [[rs g''] t']. done.
Qed.

Lemma serve_responses requests g :
  (serve app requests g).1.1 = map (λ body, (app body g).1.1) requests.
Proof.
  induction requests as [| body rest IH]; [done |]. simpl.
  pose proof (app_globals body g) as Hg.
  destruct (app body g) as [[r g'] t]. simpl in Hg. subst g'.
  destruct (serve app rest g) as [[rs g''] t']. simpl in *.
  by rewrite IH.
Qed.

End Serve.

(** C7. The same body posted twice to one process, with any requests in
    between, gets the same answer both times, and the globals, the model
    among them, are after the requests what they were before. *)
Theorem predict_deterministic g body between :
  ∃ r rs t,
    serve Main.post_predict (body :: between ++ [body]) g
    = (r :: rs ++ [r], g, t)
    ∧ r = (Main.post_predict body g).1.1.
Proof.
  pose proof (serve_globals _ main_post_predict_globals
                (body :: between ++ [body]) g) as Hg.
  pose proof (serve_responses _ main_post_predict_globals
                (body :: between ++ [body]) g) as Hr.
  destruct (serve Main.post_predict (body :: between ++ [body]) g)
    as [[rs g'] t].
  simpl in Hg, Hr. subst g'.
  rewrite map_app in Hr. simpl in Hr. subst rs.
  by eexists _, _, _.
Qed.

(** ** The handlers of main.py and test_api.py *)

(** A field of test_api.py is refused by the validator when it holds a
    negative number, and is otherwise validated as in main.py. *)
Lemma test_field_eq (body : gmap string pyobj) name :
  validate_field Test_api.check_not_negative inr body name
  = match body !! name with
    | Some v =>
        if negative_number v then
          Invalid (ValidatorError (ValueError "Value must be non-negative"))
        else validate_field inr Main.check_not_negative body name
    | None => validate_field inr Main.check_not_negative body name
    end.
Proof.
  unfold validate_field.
  destruct (body !! name) as [v |] eqn:Hv; [| done].
  assert (apply_validator Test_api.check_not_negative v
          = if negative_number v then
              Invalid (ValidatorError (ValueError "Value must be non-negative"))
            else Valid v) as ->.
  { unfold apply_validator, Test_api.check_not_negative.
    destruct v; simpl; try done;
      match goal with |- context [if ?c then _ else _] => by destruct c end. }
  destruct (negative_number v); [done |].
  change (apply_validator inr v) with (Valid v).
  destruct v; try done;
    destruct (float_validator _) as [x' | |]; try done;
    destruct (number_size_validator 0 x') as [y | |] eqn:Hb; try done;
    unfold apply_validator;
    by rewrite (MainFacts.check_not_negative_after_bound _ _ Hb).
Qed.

Lemma main_field_negative_not_valid (body : gmap string pyobj) name v x :
  body !! name = Some v → negative_number v = true →
  validate_field inr Main.check_not_negative body name ≠ Valid x.
Proof.
  intros Hv Hneg (v' & Hv' & Hf & Hge)%MainFacts.field_accepted.
  rewrite Hv in Hv'. injection Hv' as <-.
  destruct v as [| b | z | y | s | l | d]; try done; simpl in *.
  - destruct (fits_float z) eqn:Hz.
    + destruct (float_of_int_fits z Hz) as (x' & Hx & Hge' & _).
      rewrite Hf in Hx. injection Hx as <-. rewrite Hge in Hge'.
      destruct (Z.leb_spec 0 z), (Z.ltb_spec z 0); try done; lia.
    + by rewrite (float_of_int_overflow z Hz) in Hf.
  - injection Hf as ->. by rewrite (float_lt_zero_not_ge _ Hneg) in Hge.
Qed.

(** The two declarations of [PenguinFeatures] accept the same bodies. *)
Lemma validate_field_agree body name x :
  validate_field inr Main.check_not_negative body name = Valid x
  ↔ validate_field Test_api.check_not_negative inr body name = Valid x.
Proof.
  rewrite test_field_eq.
  destruct (body !! name) as [v |] eqn:Hv; [| done].
  destruct (negative_number v) eqn:Hneg; [| done].
  split; [| done]. intros H.
  by destruct (main_field_negative_not_valid _ _ _ x Hv Hneg).
Qed.

Lemma validators_agree body features :
  Main.PenguinFeatures_validate body = Accepted features
  ↔ Test_api.PenguinFeatures_validate body = Accepted features.
Proof.
  unfold Main.PenguinFeatures_validate, Test_api.PenguinFeatures_validate.
  split; intros (Ha & Hb & Hc & Hd)%validate_model_inv;
    destruct features; simpl in *;
    apply validate_model_accepts; by apply validate_field_agree.
Qed.

(** C8. When the global [model] is None, a body that the validation
    accepts is answered with status 500, not 422, and the classifier is not
    called: by main.py, where the call on None raises, and by the
    application of test_api.py, which tests for None. *)
Theorem absent_model_server_error body features g :
  model g = None →
  Main.PenguinFeatures_validate body = Accepted features →
  Main.post_predict body g
  = ({| status_code := 500; content := PyStr "Internal Server Error" |},
     g, [])
  ∧ Test_api.post_predict body g
    = ({| status_code := 500; content := detail (PyStr "Model not loaded") |},
       g, []).
Proof.
  intros Hm Hv. split.
  - unfold Main.post_predict, route. rewrite Hv.
    unfold Main.predict, model_predict, bind, get_global, raise.
    by rewrite Hm.
  - apply validators_agree in Hv.
    unfold Test_api.post_predict, route. rewrite Hv.
    unfold Test_api.predict, bind, get_global, raise.
    by rewrite Hm.
Qed.

Lemma absent_model_server_error_witness :
  Main.post_predict Test_api.valid_input Main.unbound
  = ({| status_code := 500; content := PyStr "Internal Server Error" |},
     Main.unbound, [])
  ∧ Test_api.post_predict Test_api.valid_input Main.unbound
    = ({| status_code := 500; content := detail (PyStr "Model not loaded") |},
       Main.unbound, []).
Proof.
  apply (absent_model_server_error Test_api.valid_input
           {| bill_length_mm := float_literal "39.1";
              bill_depth_mm := float_literal "18.7";
              flipper_length_mm := float_literal "181";
              body_mass_g := float_literal "3750" |}
           Main.unbound);
    vm_compute; reflexivity.
Defined.

(** ** The start of the process *)

Lemma download_cases w g :
  Main.download_model_from_gcs w g
  = let config_error :=
      ValueError "GCS_BUCKET_NAME and GCS_BLOB_NAME env vars must be set" in
    let read := [Getenv "GCS_BUCKET_NAME"; Getenv "GCS_BLOB_NAME"] in
    match Main.environ w !! "GCS_BUCKET_NAME"%string with
    | Some bucket =>
        match Main.environ w !! "GCS_BLOB_NAME"%string with
        | Some blob =>
            if String.eqb bucket EmptyString || String.eqb blob EmptyString
            then (inl config_error, g, read)
            else (Main.gcs_download w bucket blob, g,
                  read ++ [Download bucket blob])
        | None => (inl config_error, g, read)
        end
    | None => (inl config_error, g, read)
    end.
Proof.
  unfold Main.download_model_from_gcs, Main.getenv, bind, emit, ret, raise,
    Main.not_.
  destruct (Main.environ w !! "GCS_BUCKET_NAME"%string) as [bucket |];
    destruct (Main.environ w !! "GCS_BLOB_NAME"%string) as [blob |];
    cbn; try done.
  - destruct (String.eqb bucket EmptyString), (String.eqb blob EmptyString);
      cbn; try done.
    by destruct (Main.gcs_download w bucket blob).
  - by destruct (String.eqb bucket EmptyString).
Qed.

Lemma start_cases w :
  Main.start w
  = match Main.download_model_from_gcs w Main.unbound with
    | (inr temp_file_name, _, t) =>
        (load w temp_file_name, t ++ [LoadModel temp_file_name])
    | (inl e, _, t) =>
        if is_Exception e then
          let t' := t ++ [Print ("Failed to load model from GCS: "
                                 ++ str_exn e);
                          PathExists "penguin_model.json"] in
          if Main.os_path_exists w "penguin_model.json" then
            (load w "penguin_model.json",
             t' ++ [LoadModel "penguin_model.json"])
          else (inl (RuntimeError "No model available"), t')
        else (inl e, t)
    end.
Proof.
  unfold Main.start, Main.load_at_startup, load.
  unfold bind at 1 2 3. unfold try_except, Main.set_MODEL_PATH at 1, set_globals at 1.
  cbn [model Main.unbound].
  change {| MODEL_PATH := None; model := None |} with Main.unbound.
  unfold bind at 1.
  rewrite (download_cases w Main.unbound). cbv zeta.
  set (dl := match Main.environ w !! "GCS_BUCKET_NAME"%string with
             | Some _ => _ | None => _ end).
  assert (dl.1.2 = Main.unbound) as Hg.
  { unfold dl.
    destruct (Main.environ w !! "GCS_BUCKET_NAME"%string) as [bucket |];
      [| done].
    destruct (Main.environ w !! "GCS_BLOB_NAME"%string) as [blob |];
      [| done].
    by destruct (String.eqb bucket EmptyString || String.eqb blob EmptyString). }
  destruct dl as [[[e | temp] g'] t]; simpl in Hg; subst g'.
  - destruct (is_Exception e); [| done].
    unfold bind, emit, raise, get_global, Main.set_MODEL_PATH, Main.set_model,
      set_globals.
    cbn [MODEL_PATH model Main.unbound].
    destruct (Main.os_path_exists w "penguin_model.json"); [| done].
    cbn [MODEL_PATH model].
    destruct (Main.load_model w "penguin_model.json"); cbn;
      by rewrite <- ?app_assoc.
  - unfold bind, emit, raise, get_global, Main.set_MODEL_PATH, Main.set_model,
      set_globals.
    cbn [MODEL_PATH model Main.unbound].
    destruct (Main.load_model w temp); cbn; by rewrite ?app_nil_r.
Qed.

(** C5. The start first reads the two configuration values.  When both are
    set, it asks the object store for the object of that name in that
    bucket; when the store gives a file, that file is loaded and the local
    path is not consulted.  When a value is missing or empty, which is a
    [ValueError], and when the store raises an exception of class
    [Exception] (no credentials, network error, missing object), the local
    path [penguin_model.json] is consulted next: if it exists it is the
    path that is loaded, and if it does not, the start ends with a
    [RuntimeError] and nothing is served.  A process that has started has
    a model. *)
Theorem model_loader_fallback w :
  let config_error :=
    ValueError "GCS_BUCKET_NAME and GCS_BLOB_NAME env vars must be set" in
  let read := [Getenv "GCS_BUCKET_NAME"; Getenv "GCS_BLOB_NAME"] in
  match Main.environ w !! "GCS_BUCKET_NAME"%string with
  | Some bucket =>
      match Main.environ w !! "GCS_BLOB_NAME"%string with
      | Some blob =>
          if String.eqb bucket EmptyString || String.eqb blob EmptyString
          then falls_back w read config_error
          else
            let fetch := read ++ [Download bucket blob] in
            match Main.gcs_download w bucket blob with
            | inr temp_file_name =>
                Main.start w
                = (load w temp_file_name,
                   fetch ++ [LoadModel temp_file_name])
            | inl e =>
                if is_Exception e then falls_back w fetch e
                else Main.start w = (inl e, fetch)
            end
      | None => falls_back w read config_error
      end
  | None => falls_back w read config_error
  end
  ∧ match (Main.start w).1 with
    | inr g => ∃ path clf, g = loaded path clf
    | inl _ => True
    end.
Proof.
  cbv zeta. unfold falls_back. rewrite !start_cases, !download_cases.
  cbv zeta. unfold load.
  destruct (Main.environ w !! "GCS_BUCKET_NAME"%string) as [bucket |];
    [destruct (Main.environ w !! "GCS_BLOB_NAME"%string) as [blob |];
     [destruct (String.eqb bucket EmptyString || String.eqb blob EmptyString);
      [| destruct (Main.gcs_download w bucket blob) as [e | temp];
         [destruct (is_Exception e) |]] |] |];
    cbn [is_Exception];
    try destruct (Main.os_path_exists w "penguin_model.json");
    repeat match goal with
      | |- context [Main.load_model w ?p] => destruct (Main.load_model w p)
      end;
    cbn; eauto 10.
Qed.

Example start_workstation :
  Main.start Worlds.workstation
  = (inr (loaded "penguin_model.json" stump),
     [Getenv "GCS_BUCKET_NAME"; Getenv "GCS_BLOB_NAME";
      Print ("Failed to load model from GCS: "
             ++ "GCS_BUCKET_NAME and GCS_BLOB_NAME env vars must be set");
      PathExists "penguin_model.json"; LoadModel "penguin_model.json"]).
Proof. reflexivity. Qed.

Example start_deployment :
  Main.start Worlds.deployment
  = (inr (loaded "/tmp/tmp0" stump),
     [Getenv "GCS_BUCKET_NAME"; Getenv "GCS_BLOB_NAME";
      Download "penguins" "penguin_model.json"; LoadModel "/tmp/tmp0"]).
Proof. reflexivity. Qed.

Example start_missing_object :
  Main.start Worlds.missing_object
  = (inl (RuntimeError "No model available"),
     [Getenv "GCS_BUCKET_NAME"; Getenv "GCS_BLOB_NAME";
      Download "penguins" "penguin_model.json";
      Print "Failed to load model from GCS: 404 No such object";
      PathExists "penguin_model.json"]).
Proof. reflexivity. Qed.

(** An interrupt from the keyboard is no [Exception]: the start ends with
    it, although the local file exists. *)
Example start_interrupted :
  Main.start interrupted
  = (inl KeyboardInterrupt,
     [Getenv "GCS_BUCKET_NAME"; Getenv "GCS_BLOB_NAME";
      Download "penguins" "penguin_model.json"]).
Proof. reflexivity. Qed.

(** ** The tests of test_api.py *)

Section Tests.
Variable clf : XGBClassifier.
Let g : Globals := loaded "penguin_model.json" clf.

Example test_predict_endpoint_valid_input :
  ∃ pred t, Test_api.post_predict Test_api.valid_input g
            = (prediction pred, g, t).
Proof. eexists _, _. vm_compute. reflexivity. Qed.

Example test_predict_endpoint_missing_field :
  status_code (Test_api.post_predict Test_api.missing_field g).1.1 = 422.
Proof. vm_compute. reflexivity. Qed.

Example test_predict_endpoint_invalid_type :
  status_code (Test_api.post_predict Test_api.invalid_type g).1.1 = 422.
Proof. vm_compute. reflexivity. Qed.

Example test_predict_endpoint_out_of_range :
  status_code (Test_api.post_predict Test_api.out_of_range g).1.1 = 422.
Proof. vm_compute. reflexivity. Qed.

End Tests.

(** * Further properties *)

(** ** What main.py's [PenguinFeatures] accepts and what it reports *)


Lemma main_field_error (body : gmap string pyobj) name err :
  validate_field inr Main.check_not_negative body name = Invalid err →
  err ∈ [MissingError; NoneIsNotAllowedError; FloatError;
         NumberNotGeError 0].
Proof.
  destruct (body !! name) as [v |] eqn:Hv.
  - rewrite (MainFacts.field_of_value _ _ _ Hv).
    destruct v; try (intros [= <-]; set_solver);
      (destruct (float_ _) as [[] | x'];
       [.. | destruct (float_ge x' float_zero)]);
      try done; intros [= <-]; set_solver.
  - rewrite (MainFacts.field_missing _ _ Hv). intros [= <-]. set_solver.
Qed.

(** X3. In main.py the validator [check_not_negative] never refuses a
    value: every error of a body that is refused is a missing field, a
    None, a value that is no float, or the bound of [Field]. *)
Theorem main_validator_never_raises body errors e :
  Main.PenguinFeatures_validate body = Refused errors → e ∈ errors →
  loc e ∈ fields
  ∧ exc e ∈ [MissingError; NoneIsNotAllowedError; FloatError;
             NumberNotGeError 0].
Proof.
  intros [_ ->]%validate_model_errors
    (name & Hname & He)%list_elem_of_omap.
  destruct (validate_field inr Main.check_not_negative body name)
    as [| err |] eqn:Hf; [done | | done].
  injection He as <-. split; [done |].
  by apply (main_field_error body name).
Qed.

Lemma main_validator_never_raises_witness :
  loc {| exc := NumberNotGeError 0; loc := "body_mass_g" |} ∈ fields
  ∧ exc {| exc := NumberNotGeError 0; loc := "body_mass_g" |}
    ∈ [MissingError; NoneIsNotAllowedError; FloatError; NumberNotGeError 0].
Proof.
  apply (main_validator_never_raises Test_api.out_of_range
           [ {| exc := NumberNotGeError 0; loc := "body_mass_g" |} ]);
    [vm_compute; reflexivity | set_solver].
Defined.

(** ** The application of test_api.py beside the one of main.py *)


Lemma ints_fit_false body :
  ints_fit body = false →
  ∃ name z, name ∈ fields ∧ body !! name = Some (PyInt z)
            ∧ fits_float z = false.
Proof.
  unfold ints_fit. intros H.
  destruct (forallb _ fields) eqn:Hall in H; [done |]. clear H.
  apply not_true_iff_false in Hall.
  assert (¬ ∀ name, In name fields →
            match body !! name with
            | Some (PyInt z) => fits_float z
            | _ => true
            end = true) as Hex.
  { intros Hf. apply Hall. by apply forallb_forall. }
  clear Hall. unfold fields in *.
  destruct (body !! "bill_length_mm"%string) as [va |] eqn:Ha;
  destruct (body !! "bill_depth_mm"%string) as [vb |] eqn:Hb;
  destruct (body !! "flipper_length_mm"%string) as [vc |] eqn:Hc;
  destruct (body !! "body_mass_g"%string) as [vd |] eqn:Hd.
  all: try (destruct va as [| | za | | | |]; try destruct (fits_float za) eqn:?).
  all: try (destruct vb as [| | zb | | | |]; try destruct (fits_float zb) eqn:?).
  all: try (destruct vc as [| | zc | | | |]; try destruct (fits_float zc) eqn:?).
  all: try (destruct vd as [| | zd | | | |]; try destruct (fits_float zd) eqn:?).
  all: first
    [ exfalso; apply Hex; intros name Hname; simpl in Hname;
      destruct Hname as [<- | [<- | [<- | [<- | []]]]];
      match goal with
      | H : _ !! ?n = _ |- context [_ !! ?n] => by rewrite H
      end
    | exists "bill_length_mm"%string; eexists;
      (split; [set_solver |]); split; eassumption
    | exists "bill_depth_mm"%string; eexists;
      (split; [set_solver |]); split; eassumption
    | exists "flipper_length_mm"%string; eexists;
      (split; [set_solver |]); split; eassumption
    | exists "body_mass_g"%string; eexists;
      (split; [set_solver |]); split; eassumption ].
Qed.









(** X6. The import of test_api.py never fails on an [XGBoostError] of the
    loader: the module is imported with [model = None], where main.py
    would not start.  The three tests of refused bodies then still get
    422, and the test of the valid body gets 500. *)
Theorem test_import_without_artifact w name msg :
  Main.load_model w "penguin_model.json"
  = inl (OtherException name msg) →
  name = "XGBoostError"%string →
  ∃ g t,
    Test_setup.start w = (inr g, t) ∧ model g = None
    ∧ status_code (Test_api.post_predict Test_api.valid_input g).1.1 = 500
    ∧ status_code (Test_api.post_predict Test_api.missing_field g).1.1 = 422
    ∧ status_code (Test_api.post_predict Test_api.invalid_type g).1.1 = 422
    ∧ status_code (Test_api.post_predict Test_api.out_of_range g).1.1 = 422.
Proof.
  intros Hload ->.
  unfold Test_setup.start, Test_setup.load_at_import, try_except, bind, emit,
    raise. rewrite Hload. simpl.
  eexists _, _. split; [reflexivity |]. by repeat split; vm_compute.
Qed.

Lemma test_import_without_artifact_witness :
  ∃ g t,
    Test_setup.start no_artifact = (inr g, t) ∧ model g = None
    ∧ status_code (Test_api.post_predict Test_api.valid_input g).1.1 = 500
    ∧ status_code (Test_api.post_predict Test_api.missing_field g).1.1 = 422
    ∧ status_code (Test_api.post_predict Test_api.invalid_type g).1.1 = 422
    ∧ status_code (Test_api.post_predict Test_api.out_of_range g).1.1 = 422.
Proof.
  apply (test_import_without_artifact no_artifact
           "XGBoostError" "No such file"); reflexivity.
Defined.
